(** * The document controller: ingestion, reprocessing and deletion endpoints

    A shallow embedding of [controllers/document_controller.py].  The
    endpoints are asynchronous functions that sequence calls to
    collaborators living in other modules ([models.documents],
    [service.processors.service]) and in libraries ([httpx], [tempfile],
    [os]).  Each endpoint is embedded as a function from the state it runs
    in to its outcome, the state it leaves and the calls it made, in order.

    Strings are byte strings ([string] of 8-bit characters); Python
    exceptions are outcomes of type [Exc]; a Python dict of fixed shape is a
    record.  The [print] calls are left out. *)

From Stdlib Require Import String Ascii ZArith DecimalString.
From stdpp Require Import base option list gmap strings.

Local Open Scope string_scope.
Local Open Scope Z_scope.

(** ** Python values used by the controller *)

(** [str(n)] for a non-negative integer. *)
Definition str_of_nat (n : nat) : string :=
  NilZero.string_of_uint (Nat.to_uint n).

(** What a raised exception is to this file: [except Exception as e] catches
    every class derived from [Exception] and reads [str(e)];
    [asyncio.CancelledError] derives from [BaseException] and passes through
    such a clause. *)
Inductive Exc : Type :=
| Exception (msg : string)
| CancelledError.

Inductive Outcome (A : Type) : Type :=
| Returned (a : A)
| Raised (e : Exc).
Arguments Returned {A} a.
Arguments Raised {A} e.

(** Messages of the exceptions the interpreter itself raises in this file. *)
Definition TypeError_NoneType_subscript : string :=
  "'NoneType' object is not subscriptable".
Definition TypeError_splitext_None : string :=
  "expected str, bytes or os.PathLike object, not NoneType".
Definition UnboundLocalError_temp_file_path : string :=
  "cannot access local variable 'temp_file_path' where it is not associated with a value".
(** The text of [os.remove]'s [FileNotFoundError] without the path that
    follows it in [str(e)]: the model does not name paths.  [os.remove] is
    called on files that exist, so no statement below reads this text. *)
Definition FileNotFoundError_remove : string :=
  "[Errno 2] No such file or directory".

(** The metadata dict [get_document] hands out.  The controller reads the
    first five keys; [chunk_count] is the derived count of the data model. *)
Record Document : Type := {
  file_url : string;
  file_extension : string;
  user_id : string;
  is_public : bool;
  filename : string;
  chunk_count : nat
}.

(** Name of a temporary file ([tmp.name], a non-empty absolute path):
    the unique component [tempfile] puts in it. *)
Abbreviation Path := nat (only parsing).

(** The response of [client.stream('GET', url)]: a status line and a body
    that [aiter_bytes] delivers chunk by chunk; [body_error] is what the
    iterator raises once the chunks of [body] have been delivered when the
    transfer breaks before the end. *)
Record HttpResponse : Type := {
  status_code : Z;
  body : list string;
  body_error : option Exc
}.

(** A FastAPI [UploadFile]: [filename] is [Optional[str]]; [content] is what
    [await file.read()] does. *)
Record UploadFile : Type := {
  upload_filename : option string;
  content : Outcome string
}.

(** The dict every endpoint returns; [data] is [None] when the key is
    absent. *)
Record Response : Type := {
  status : string;
  message : string;
  data : option (option Document)
}.

Definition error_response (msg : string) : Response :=
  {| status := "error"; message := msg; data := None |}.
Definition success_response (msg : string) : Response :=
  {| status := "success"; message := msg; data := None |}.
Definition success_data (d : option Document) (msg : string) : Response :=
  {| status := "success"; data := Some d; message := msg |}.

(** ** [os.path.splitext] and [str.lower] *)

Fixpoint rfind_from (c : ascii) (s : string) (i last : Z) : Z :=
  match s with
  | EmptyString => last
  | String a s' => rfind_from c s' (i + 1) (if Ascii.eqb a c then i else last)
  end.

(** [p.rfind(c)]: index of the last occurrence, [-1] when there is none. *)
Definition rfind (c : ascii) (p : string) : Z := rfind_from c p 0 (-1).

Fixpoint all_dots (s : string) : bool :=
  match s with
  | EmptyString => true
  | String a s' => Ascii.eqb a "." && all_dots s'
  end.

(** [os.path.splitext(p)[1]] ([posixpath]): the suffix from the last dot,
    unless that dot is before the last separator or only dots precede it in
    the file name. *)
Definition splitext_ext (p : string) : string :=
  let sepIndex := rfind "/" p in
  let dotIndex := rfind "." p in
  if (sepIndex <? dotIndex)
  then
    if all_dots (substring (Z.to_nat (sepIndex + 1))
                           (Z.to_nat (dotIndex - (sepIndex + 1))) p)
    then ""
    else substring (Z.to_nat dotIndex) (String.length p) p
  else "".

Definition lower_ascii (a : ascii) : ascii :=
  let n := nat_of_ascii a in
  if ((65 <=? n) && (n <=? 90))%nat then ascii_of_nat (n + 32) else a.

(** [s.lower()] on the ASCII letters: it is [str.lower] for a string of
    ASCII characters ([ascii_only]); the capitals outside ASCII, which
    [str.lower] also lowers, are left as they are. *)
Fixpoint lower (s : string) : string :=
  match s with
  | EmptyString => EmptyString
  | String a s' => String (lower_ascii a) (lower s')
  end.

(** [s.isascii()]. *)
Fixpoint ascii_only (s : string) : bool :=
  match s with
  | EmptyString => true
  | String a s' => (nat_of_ascii a <? 128)%nat && ascii_only s'
  end.

(** ** Calls and their record *)

(** The calls the controller makes, with their arguments. *)
Inductive Call : Type :=
| get_document_call (document_id : string)
| delete_document_call (document_id : string)
| update_document_call (document_id : string)
    (filename : option string) (is_public : option bool)
| add_doc_with_link_call (user_id : string) (is_public : bool)
    (filename : string) (file_path : Path)
| delete_chunks_call (document_id : string)
| process_pdf_call (file_path : Path)
| process_docx_call (file_path : Path)
| process_text_file_call (file_path : Path)
| add_document_call (documents : list string) (user_id : string)
    (is_public : bool) (document_id : string) (filename : string)
| client_stream_call (url : string)
| NamedTemporaryFile_call (suffix : string)
| file_read_call
| os_remove_call (file_path : Path).

(** How a call ended. *)
Inductive Ended : Type :=
| Done
| Failed (e : Exc).

Definition ended {A} (o : Outcome A) : Ended :=
  match o with Returned _ => Done | Raised e => Failed e end.

Abbreviation Event := (Call * Ended)%type (only parsing).

(** The temporary files that exist, with their contents. *)
Abbreviation Files := (gmap nat string) (only parsing).

(** ** Collaborators

    [Ext] is the state of everything outside this process: the metadata
    store, the vector index, the blob source.  The collaborators act on it
    and may raise; those handed a file path read the file. *)
Class Collaborators (Ext : Type) : Type := {
  (* models.documents *)
  get_document : string -> Ext -> Outcome (option Document) * Ext;
  delete_document : string -> Ext -> Outcome bool * Ext;
  update_document :
    string -> option string -> option bool -> Ext -> Outcome (option Document) * Ext;
  (* returns [str(result.inserted_id)] *)
  add_doc_with_link :
    string -> bool -> string -> Path -> Files -> Ext -> Outcome string * Ext;
  (* service.processors.service *)
  delete_chunks : string -> Ext -> Outcome unit * Ext;
  process_pdf : Path -> Files -> Ext -> Outcome (list string) * Ext;
  process_docx : Path -> Files -> Ext -> Outcome (list string) * Ext;
  process_text_file : Path -> Files -> Ext -> Outcome (list string) * Ext;
  add_document :
    list string -> string -> bool -> string -> string -> Ext -> Outcome unit * Ext;
  (* httpx: [client.stream('GET', url, headers=headers)], redirects followed *)
  client_stream : string -> Ext -> Outcome HttpResponse * Ext;
  (* tempfile: the name chosen by [NamedTemporaryFile(delete=False, suffix=...)] *)
  NamedTemporaryFile : string -> Ext -> Outcome Path * Ext
}.

(** ** The monad of endpoint code *)

Record State (Ext : Type) : Type := MkState {
  ext : Ext;
  files : gmap nat string
}.
Arguments MkState {Ext} ext files.
Arguments ext {Ext} s.
Arguments files {Ext} s.

Record Run (Ext A : Type) : Type := MkRun {
  outcome : Outcome A;
  final : State Ext;
  emitted : list (Call * Ended)
}.
Arguments MkRun {Ext A} outcome final emitted.
Arguments outcome {Ext A} r.
Arguments final {Ext A} r.
Arguments emitted {Ext A} r.

Definition M (Ext A : Type) : Type := State Ext -> Run Ext A.

Section Monad.
Context {Ext : Type}.

Definition ret {A} (a : A) : M Ext A :=
  fun s => MkRun (Returned a) s [].

Definition raise {A} (e : Exc) : M Ext A :=
  fun s => MkRun (Raised e) s [].

Definition bind {A B} (m : M Ext A) (k : A -> M Ext B) : M Ext B :=
  fun s =>
    let '(MkRun o s1 ev) := m s in
    match o with
    | Returned a => let '(MkRun o' s2 ev') := k a s1 in MkRun o' s2 (ev ++ ev')
    | Raised e => MkRun (Raised e) s1 ev
    end.

(** [await f(...)]: the call is recorded with the way it ended. *)
Definition call {A} (c : Call) (f : Files -> Ext -> Outcome A * Ext) : M Ext A :=
  fun s =>
    let '(o, e') := f (files s) (ext s) in
    MkRun o (MkState e' (files s)) [(c, ended o)].

(** [try: body / except Exception as e: handler(str(e))]. *)
Definition try_except {A} (body : M Ext A) (handler : string -> M Ext A) : M Ext A :=
  fun s =>
    let '(MkRun o s1 ev) := body s in
    match o with
    | Raised (Exception msg) =>
        let '(MkRun o' s2 ev') := handler msg s1 in MkRun o' s2 (ev ++ ev')
    | _ => MkRun o s1 ev
    end.

(** A [try] block that binds a local on its way, [before] up to the
    binding and [after] from it, with an [except Exception] clause that
    reads the local: [handler None] when the block raised before the
    binding. *)
Definition try_except_binding {A B} (before : M Ext B) (after : B -> M Ext A)
    (handler : option B -> string -> M Ext A) : M Ext A :=
  fun s =>
    let '(MkRun o s1 ev) := before s in
    match o with
    | Returned b =>
        let '(MkRun o' s2 ev') := try_except (after b) (handler (Some b)) s1 in
        MkRun o' s2 (ev ++ ev')
    | Raised (Exception msg) =>
        let '(MkRun o' s2 ev') := handler None msg s1 in MkRun o' s2 (ev ++ ev')
    | Raised CancelledError => MkRun (Raised CancelledError) s1 ev
    end.

(** [try: body / finally: cleanup]: the cleanup runs on every way out of
    the body; what it raises replaces the body's outcome. *)
Definition try_finally {A} (body : M Ext A) (cleanup : M Ext unit) : M Ext A :=
  fun s =>
    let '(MkRun o s1 ev) := body s in
    let '(MkRun o' s2 ev') := cleanup s1 in
    match o' with
    | Returned _ => MkRun o s2 (ev ++ ev')
    | Raised e => MkRun (Raised e) s2 (ev ++ ev')
    end.

(** [os.path.exists(path)]. *)
Definition os_path_exists (p : Path) : M Ext bool :=
  fun s => MkRun (Returned (bool_decide (is_Some (files s !! p)))) s [].

(** [os.remove(path)]. *)
Definition os_remove (p : Path) : M Ext unit :=
  fun s =>
    match files s !! p with
    | Some _ =>
        MkRun (Returned tt) (MkState (ext s) (delete p (files s)))
              [(os_remove_call p, Done)]
    | None =>
        MkRun (Raised (Exception FileNotFoundError_remove)) s
              [(os_remove_call p, Failed (Exception FileNotFoundError_remove))]
    end.

(** The file [NamedTemporaryFile] has just opened: created empty. *)
Definition create_file (p : Path) : M Ext unit :=
  fun s => MkRun (Returned tt) (MkState (ext s) (<[p := ""]> (files s))) [].

(** [tmp.write(chunk)]. *)
Definition tmp_write (p : Path) (chunk : string) : M Ext unit :=
  fun s =>
    MkRun (Returned tt)
          (MkState (ext s) (<[p := default "" (files s !! p) +:+ chunk]> (files s)))
          [].
End Monad.

Notation "x <- m ;; k" := (bind m (fun x => k))
  (at level 100, m at next level, right associativity).
Notation "m ;;; k" := (bind m (fun _ => k))
  (at level 100, right associativity).

(** ** The endpoints *)

Section Controller.
Context {Ext : Type} `{Collaborators Ext}.

(** [DELETE /document/{document_id}] *)
Definition delete_document_route (document_id : string) : M Ext Response :=
  try_except
    (call (delete_chunks_call document_id) (fun _ => delete_chunks document_id) ;;;
     success <- call (delete_document_call document_id)
                     (fun _ => delete_document document_id) ;;
     if negb success
     then ret (error_response "Document not found")
     else ret (success_response "Document and its chunks deleted successfully"))
    (fun e => ret (error_response e)).

(** [async for chunk in response.aiter_bytes(): tmp.write(chunk)] *)
Fixpoint aiter_bytes_write (tmp : Path) (chunks : list string) (err : option Exc)
  : M Ext unit :=
  match chunks with
  | [] => match err with Some e => raise e | None => ret tt end
  | chunk :: rest => tmp_write tmp chunk ;;; aiter_bytes_write tmp rest err
  end.

(** [download_document_file]: returns [(None, reason)] or
    [(temp_file_path, file_extension)].  The temporary file is opened with
    [delete=False]: leaving the [with] block closes it and keeps it. *)
Definition download_document_file (document_id : string)
  : M Ext (option Path * string) :=
  document <- call (get_document_call document_id)
                   (fun _ => get_document document_id) ;;
  match document with
  | None => ret (None, "Document not found")
  | Some document =>
      response <- call (client_stream_call (file_url document))
                       (fun _ => client_stream (file_url document)) ;;
      if bool_decide (status_code response <> 200)
      then ret (None, "Failed to download file from URL")
      else
        let file_ext := file_extension document in
        tmp <- call (NamedTemporaryFile_call ("." +:+ file_ext))
                    (fun _ => NamedTemporaryFile ("." +:+ file_ext)) ;;
        create_file tmp ;;;
        let temp_file_path := tmp in
        aiter_bytes_write tmp (body response) (body_error response) ;;;
        ret (Some temp_file_path, file_extension document)
  end.

(** The extractor chosen by the extension (lines 202-209). *)
Definition process_by_extension (file_ext : string) (temp_file_path : Path)
  : M Ext (list string) :=
  if bool_decide (file_ext = "pdf")
  then call (process_pdf_call temp_file_path) (process_pdf temp_file_path)
  else if bool_decide (file_ext ∈ ["docx"; "doc"])
  then call (process_docx_call temp_file_path) (process_docx temp_file_path)
  else if bool_decide (file_ext ∈ ["md"; "txt"])
  then call (process_text_file_call temp_file_path) (process_text_file temp_file_path)
  else raise (Exception ("Unsupported file type: " +:+ file_ext)).

(** [POST /document/pinecone/{document_id}] *)
Definition reprocess_to_pinecone (document_id : string) : M Ext Response :=
  try_except
    (fetched <- download_document_file document_id ;;
     let '(temp_file_path, file_ext) := fetched in
     match temp_file_path with
     | None => ret (error_response file_ext)
     | Some temp_file_path =>
         try_finally
           (documents <- process_by_extension file_ext temp_file_path ;;
            document <- call (get_document_call document_id)
                             (fun _ => get_document document_id) ;;
            match document with
            | None => raise (Exception TypeError_NoneType_subscript)
            | Some document =>
                call (add_document_call documents (user_id document)
                        (is_public document) document_id (filename document))
                     (fun _ => add_document documents (user_id document)
                                 (is_public document) document_id
                                 (filename document)) ;;;
                ret (success_response
                       ("Successfully reprocessed "
                        +:+ str_of_nat (length documents)
                        +:+ " documents into Pinecone"))
            end)
           (present <- os_path_exists temp_file_path ;;
            if present then os_remove temp_file_path else ret tt)
     end)
    (fun e => ret (error_response e)).

(** Lines 250-251 of [upload_document]: the part of the [try] block
    between the extension and the binding of the local [temp_file_path]. *)
Definition upload_open_tmp (filename : string) : M Ext Path :=
  let file_ext := lower (splitext_ext filename) in
  tmp <- call (NamedTemporaryFile_call file_ext)
              (fun _ => NamedTemporaryFile file_ext) ;;
  create_file tmp ;;;
  ret tmp.

(** Lines 252-270: the rest of the [try] block. *)
Definition upload_store (user_id : string) (is_public : bool) (file : UploadFile)
    (filename : string) (temp_file_path : Path) : M Ext Response :=
  content <- call file_read_call (fun _ e => (content file, e)) ;;
  tmp_write temp_file_path content ;;;
  inserted_id <- call (add_doc_with_link_call user_id is_public filename
                         temp_file_path)
                      (add_doc_with_link user_id is_public filename
                         temp_file_path) ;;
  os_remove temp_file_path ;;;
  document <- call (get_document_call inserted_id)
                   (fun _ => get_document inserted_id) ;;
  ret (success_data document "File uploaded successfully").

(** Lines 272-279: the [except Exception] clause.  It reads the local
    [temp_file_path], which is bound only once line 251 has run. *)
Definition upload_except (temp_file_path : option Path) (e : string)
  : M Ext Response :=
  match temp_file_path with
  | None => raise (Exception UnboundLocalError_temp_file_path)
  | Some temp_file_path =>
      present <- os_path_exists temp_file_path ;;
      (if present then os_remove temp_file_path else ret tt) ;;;
      ret (error_response e)
  end.

(** [POST /upload].  [os.path.splitext(None)] raises [TypeError]. *)
Definition upload_document (user_id : string) (is_public : bool) (file : UploadFile)
  : M Ext Response :=
  match upload_filename file with
  | None => upload_except None TypeError_splitext_None
  | Some filename =>
      try_except_binding
        (upload_open_tmp filename)
        (upload_store user_id is_public file filename)
        upload_except
  end.

(** [PUT /document] *)
Definition update_document_route (document_id : string)
    (filename : option string) (is_public : option bool) : M Ext Response :=
  try_except
    (updated_document <-
       call (update_document_call document_id filename is_public)
            (fun _ => update_document document_id filename is_public) ;;
     match updated_document with
     | None => ret (error_response "Document not found or no changes made")
     | Some d => ret (success_data (Some d) "Document updated successfully")
     end)
    (fun e => ret (error_response e)).
End Controller.

(** ** Vocabulary of the statements *)

(** Kinds of calls. *)
Definition extraction (c : Call) : bool :=
  match c with
  | process_pdf_call _ | process_docx_call _ | process_text_file_call _ => true
  | _ => false
  end.

Definition index_write (c : Call) : bool :=
  match c with
  | delete_chunks_call _ | add_document_call _ _ _ _ _ => true
  | _ => false
  end.

Definition metadata_write (c : Call) : bool :=
  match c with
  | delete_document_call _ | update_document_call _ _ _
  | add_doc_with_link_call _ _ _ _ => true
  | _ => false
  end.

Definition removal_of (p : Path) (c : Call) : bool :=
  match c with
  | os_remove_call q => bool_decide (q = p)
  | _ => false
  end.

(** The calls [upload_document] is written to make. *)
Definition upload_call (c : Call) : bool :=
  match c with
  | NamedTemporaryFile_call _ | file_read_call | add_doc_with_link_call _ _ _ _
  | os_remove_call _ | get_document_call _ => true
  | _ => false
  end.

(** Lines 202-207, read as a table: for the extension [file_ext], the
    extractor called on the temporary file [tmp] in the outside state [e] is
    the call [pc], and it returned [documents], leaving [e']. *)
Definition extracted_by {Ext} `{Collaborators Ext} (file_ext : string) (tmp : Path)
    (fs : gmap nat string) (e : Ext) (pc : Call) (documents : list string)
    (e' : Ext) : Prop :=
  (file_ext = "pdf"
   /\ pc = process_pdf_call tmp
   /\ process_pdf tmp fs e = (Returned documents, e'))
  \/ (file_ext ∈ ["docx"; "doc"]
      /\ pc = process_docx_call tmp
      /\ process_docx tmp fs e = (Returned documents, e'))
  \/ (file_ext ∈ ["md"; "txt"]
      /\ pc = process_text_file_call tmp
      /\ process_text_file tmp fs e = (Returned documents, e')).

(** The endpoint answered [{"status": "success", ...}]. *)
Definition succeeded {Ext} (r : Run Ext Response) : Prop :=
  exists resp, outcome r = Returned resp /\ status resp = "success".

(** The endpoint answered, whatever the answer. *)
Definition answered {Ext} (r : Run Ext Response) : Prop :=
  exists resp, outcome r = Returned resp.

(** The extensions lines 202-207 dispatch on. *)
Definition supported_extensions : list string := ["pdf"; "docx"; "doc"; "md"; "txt"].

(** Contents of a temporary file after the chunks of a body were written
    to it in order. *)
Definition written (tmp : Path) (chunks : list string) (fs : gmap nat string)
  : gmap nat string :=
  foldl (fun fs c => <[tmp := default "" (fs !! tmp) +:+ c]> fs) fs chunks.

(** The three ways the fetch of a stored document fails: no metadata
    record, a status other than 200, a body that breaks before its end.
    Each comes with the message, the outside state and the calls made when
    the failure is known. *)
Inductive fetch_failure {Ext} `{Collaborators Ext} (id : string) (s : State Ext)
  : string -> Ext -> list (Call * Ended) -> Prop :=
| lookup_failed e1 :
    get_document id (ext s) = (Returned None, e1) ->
    fetch_failure id s "Document not found" e1 [(get_document_call id, Done)]
| bad_status d e1 response e2 :
    get_document id (ext s) = (Returned (Some d), e1) ->
    client_stream (file_url d) e1 = (Returned response, e2) ->
    status_code response <> 200 ->
    fetch_failure id s "Failed to download file from URL" e2
      [(get_document_call id, Done); (client_stream_call (file_url d), Done)]
| stream_broken d e1 response e2 tmp e3 msg :
    get_document id (ext s) = (Returned (Some d), e1) ->
    client_stream (file_url d) e1 = (Returned response, e2) ->
    status_code response = 200 ->
    NamedTemporaryFile ("." +:+ file_extension d) e2 = (Returned tmp, e3) ->
    body_error response = Some (Exception msg) ->
    fetch_failure id s msg e3
      [(get_document_call id, Done); (client_stream_call (file_url d), Done);
       (NamedTemporaryFile_call ("." +:+ file_extension d), Done)].

(** ** The collaborators as the specification describes them

    The metadata store and the vector index are not part of the controller's
    file.  This module gives them the behaviour the specification states:
    the store of section 6, the chunker of section 4.3 and the index writer
    of section 4.4. *)
Module SpecModel.

(** An indexed chunk (section 3), keyed in the index by the composite of
    its [document_id] and [sequence_index]. *)
Record Chunk : Type := {
  document_id : string;
  sequence_index : nat;
  text : string;
  owner_id : string;
  chunk_is_public : bool;
  chunk_filename : string
}.

(** The outside world: metadata store, vector index, and the rest
    ([Env]: network, blob storage, temporary directory, extraction
    libraries). *)
Record Store (Env : Type) : Type := MkStore {
  meta : gmap string Document;
  index : gmap (string * nat) Chunk;
  env : Env
}.
Arguments MkStore {Env} meta index env.
Arguments meta {Env} s.
Arguments index {Env} s.
Arguments env {Env} s.

(** What the specification leaves to configuration or to the outside.
    [chunk] is the Chunker of section 4.3 as far as it runs between the
    hand-over of the extracted units and the write to the index: windows
    of a size and an overlap ([chunker], below), or the identity where the
    extractors already hand over chunks. *)
Record Setting (Env : Type) : Type := {
  chunk : list string -> list string;
  http_get : string -> Env -> Outcome HttpResponse * Env;
  temp_name : string -> Env -> Outcome nat * Env;
  extract_pdf : option string -> Env -> Outcome (list string) * Env;
  extract_docx : option string -> Env -> Outcome (list string) * Env;
  extract_text : option string -> Env -> Outcome (list string) * Env;
  store_blob : option string -> Env -> Outcome string * Env;
  new_id : gmap string Document -> string
}.
Arguments chunk {Env} s.
Arguments http_get {Env} s.
Arguments temp_name {Env} s.
Arguments extract_pdf {Env} s.
Arguments extract_docx {Env} s.
Arguments extract_text {Env} s.
Arguments store_blob {Env} s.
Arguments new_id {Env} s.

(** Modelled from the spec: the Chunker's windows (section 4.3), "fixed
    maximum-size windows with a fixed overlap between consecutive
    windows"; the chunker itself is in [service.processors.service]. *)
Fixpoint windows (fuel size step : nat) (s : string) : list string :=
  match fuel with
  | O => []
  | S fuel' =>
      match s with
      | EmptyString => []
      | _ =>
          substring 0 size s ::
            (if (String.length s <=? size)%nat then []
             else windows fuel' size step
                    (substring step (String.length s - step) s))
      end
  end.

(** Modelled from the spec: [chunk] of section 4.3 on the concatenated
    text units; empty text gives no chunk. *)
Definition chunker (size overlap : nat) (units : list string) : list string :=
  let text := String.concat "" units in
  windows (String.length text) size (size - overlap) text.

(** Modelled from the spec: [purge(document_id)] of section 4.4, "removes
    all chunks tagged with document_id from the vector index; succeeds
    (no-op) if none exist" ([delete_chunks] is in
    [service.processors.service]). *)
Definition purge (id : string) (idx : gmap (string * nat) Chunk)
  : gmap (string * nat) Chunk :=
  filter (fun kc => kc.1.1 <> id) idx.

Definition mk_chunk (id : string) (n : nat) (t owner : string) (pub : bool)
    (fname : string) : Chunk :=
  {| document_id := id; sequence_index := n; text := t; owner_id := owner;
     chunk_is_public := pub; chunk_filename := fname |}.

(** Modelled from the spec: [upsert(document_id, chunks, metadata)] of
    section 4.4, "writes it keyed by a composite of document_id and
    sequence_index, attaching metadata (owner_id, is_public, filename)";
    [upsert_from n] numbers the chunks from [n]. *)
Fixpoint upsert_from (n : nat) (id : string) (chunks : list string)
    (owner : string) (pub : bool) (fname : string)
    (idx : gmap (string * nat) Chunk) : gmap (string * nat) Chunk :=
  match chunks with
  | [] => idx
  | t :: rest =>
      upsert_from (S n) id rest owner pub fname
        (<[(id, n) := mk_chunk id n t owner pub fname]> idx)
  end.

Definition upsert := upsert_from 0.

(** The chunks of a document present in the index. *)
Definition chunks_of (id : string) (idx : gmap (string * nat) Chunk)
  : gmap (string * nat) Chunk :=
  filter (fun kc => kc.1.1 = id) idx.

Section Instance.
Context {Env : Type} (cfg : Setting Env).

Definition on_env {A} (f : Env -> Outcome A * Env) (st : Store Env)
  : Outcome A * Store Env :=
  let '(o, e') := f (env st) in (o, MkStore (meta st) (index st) e').

(** Modelled from the spec: [get(id) -> DocumentMetadata?] of section 6
    ([models.documents] is not in the controller's file). *)
Definition spec_get_document (id : string) (st : Store Env)
  : Outcome (option Document) * Store Env :=
  (Returned (meta st !! id), st).

(** Modelled from the spec: [delete(id) -> bool] of section 6. *)
Definition spec_delete_document (id : string) (st : Store Env)
  : Outcome bool * Store Env :=
  match meta st !! id with
  | Some _ => (Returned true, MkStore (delete id (meta st)) (index st) (env st))
  | None => (Returned false, st)
  end.

(** Modelled from the spec: [update(id, patch)] of section 6, on the
    two fields the endpoint can edit; nothing to do without a record or
    with an empty patch. *)
Definition spec_update_document (id : string) (fname : option string)
    (pub : option bool) (st : Store Env)
  : Outcome (option Document) * Store Env :=
  match meta st !! id, fname, pub with
  | None, _, _ | _, None, None => (Returned None, st)
  | Some d, _, _ =>
      let d' := {| file_url := file_url d;
                   file_extension := file_extension d;
                   user_id := user_id d;
                   is_public := default (is_public d) pub;
                   filename := default (filename d) fname;
                   chunk_count := chunk_count d |} in
      (Returned (Some d'), MkStore (<[id := d']> (meta st)) (index st) (env st))
  end.

(** Modelled from the spec: [create(metadata) -> id] of section 6 after
    the content is stored at a URL (section 3, [source_url]). *)
Definition spec_add_doc_with_link (owner : string) (pub : bool) (fname : string)
    (path : nat) (fs : gmap nat string) (st : Store Env)
  : Outcome string * Store Env :=
  match store_blob cfg (fs !! path) (env st) with
  | (Returned url, e') =>
      let id := new_id cfg (meta st) in
      let d := {| file_url := url;
                  file_extension :=
                    substring 1 (String.length fname) (lower (splitext_ext fname));
                  user_id := owner; is_public := pub; filename := fname;
                  chunk_count := 0 |} in
      (Returned id, MkStore (<[id := d]> (meta st)) (index st) e')
  | (Raised e, e') => (Raised e, MkStore (meta st) (index st) e')
  end.

(** Modelled from the spec: [purge] as the collaborator [delete_chunks]. *)
Definition spec_delete_chunks (id : string) (st : Store Env)
  : Outcome unit * Store Env :=
  (Returned tt, MkStore (meta st) (purge id (index st)) (env st)).


(** Modelled from the spec: the hand-over of section 2 as the collaborator
    [add_document] ([service.processors.service] is not in the controller's
    file): the orchestrator "hands resulting chunks to the Index Writer
    together with a directive to first purge any existing chunks for that
    document identity".  The chunks are [chunk cfg documents]; the [purge]
    of section 4.4 is done, then the [upsert]. *)
Definition spec_add_document (documents : list string) (owner : string)
    (pub : bool) (id fname : string) (st : Store Env)
  : Outcome unit * Store Env :=
  (Returned tt,
   MkStore (meta st)
           (upsert id (chunk cfg documents) owner pub fname
                   (purge id (index st)))
           (env st)).

Definition spec_collaborators : Collaborators (Store Env) := {|
  get_document := spec_get_document;
  delete_document := spec_delete_document;
  update_document := spec_update_document;
  add_doc_with_link := spec_add_doc_with_link;
  delete_chunks := spec_delete_chunks;
  process_pdf := fun p fs => on_env (extract_pdf cfg (fs !! p));
  process_docx := fun p fs => on_env (extract_docx cfg (fs !! p));
  process_text_file := fun p fs => on_env (extract_text cfg (fs !! p));
  add_document := spec_add_document;
  client_stream := fun url => on_env (http_get cfg url);
  NamedTemporaryFile := fun suffix => on_env (temp_name cfg suffix)
|}.
(** Modelled from the spec: an [upsert] that partially fails (section
    4.4, "some chunks written, some not"): after the purge, the writer
    raises once [k] chunks are written, when there are more. *)
Definition spec_add_document_failing (k : nat) (documents : list string)
    (owner : string) (pub : bool) (id fname : string) (st : Store Env)
  : Outcome unit * Store Env :=
  let chunks := chunk cfg documents in
  let st' := MkStore (meta st)
                     (upsert id (take k chunks) owner pub fname
                             (purge id (index st)))
                     (env st) in
  if (k <? length chunks)%nat
  then (Raised (Exception "index write failed"), st')
  else (Returned tt, st').

Definition failing_collaborators (k : nat) : Collaborators (Store Env) := {|
  get_document := spec_get_document;
  delete_document := spec_delete_document;
  update_document := spec_update_document;
  add_doc_with_link := spec_add_doc_with_link;
  delete_chunks := spec_delete_chunks;
  process_pdf := fun p fs => on_env (extract_pdf cfg (fs !! p));
  process_docx := fun p fs => on_env (extract_docx cfg (fs !! p));
  process_text_file := fun p fs => on_env (extract_text cfg (fs !! p));
  add_document := spec_add_document_failing k;
  client_stream := fun url => on_env (http_get cfg url);
  NamedTemporaryFile := fun suffix => on_env (temp_name cfg suffix)
|}.
End Instance.

End SpecModel.

(** ** A concrete deployment

    Five stored documents, a blob source, an extractor that hands back the
    file's text as one unit, windows of 10 characters overlapping by 1.
    The outside state [Env] says whether the temporary directory accepts a
    new file. *)
Module Scenario.
Import SpecModel.

Definition blob (url : string) : HttpResponse :=
  if bool_decide (url = "http://blob/short")
  then {| status_code := 200; body := ["new"]; body_error := None |}
  else if bool_decide (url = "http://blob/long")
  then {| status_code := 200;
          body := ["0123456789"; "abcdefghij"; "ABCDE"];
          body_error := None |}
  else if bool_decide (url = "http://blob/broken")
  then {| status_code := 200; body := ["par"];
          body_error := Some (Exception "peer closed connection") |}
  else {| status_code := 404; body := []; body_error := None |}.

Definition one_unit (file : option string) (e : bool)
  : Outcome (list string) * bool :=
  match file with
  | Some t => (Returned [t], e)
  | None => (Raised (Exception "[Errno 2] No such file or directory"), e)
  end.

Definition cfg : Setting bool := {|
  chunk := chunker 10 1;
  http_get := fun url e => (Returned (blob url), e);
  temp_name := fun _ (writable : bool) =>
    if writable then (Returned 7%nat, writable)
    else (Raised (Exception "[Errno 28] No space left on device"), writable);
  extract_pdf := one_unit;
  extract_docx := one_unit;
  extract_text := one_unit;
  store_blob := fun _ e => (Returned "http://blob/uploaded", e);
  new_id := fun _ => "d9"
|}.

Definition doc (url file_ext fname : string) (n : nat) : Document :=
  {| file_url := url; file_extension := file_ext; user_id := "u1";
     is_public := true; filename := fname; chunk_count := n |}.

Definition stored : gmap string Document :=
  <["d1" := doc "http://blob/short" "txt" "a.txt" 3]>
 (<["d2" := doc "http://blob/long" "md" "b.md" 0]>
 (<["d3" := doc "http://blob/broken" "txt" "c.txt" 0]>
 (<["d4" := doc "http://blob/short" "xyz" "d.xyz" 0]>
 (<["d5" := doc "http://blob/gone" "pdf" "e.pdf" 0]> ∅)))).

(** Document [d1] was indexed earlier as three chunks. *)
Definition old_chunk (n : nat) (t : string) : Chunk :=
  mk_chunk "d1" n t "u1" true "a.txt".

Definition indexed : gmap (string * nat) Chunk :=
  <[("d1", 0%nat) := old_chunk 0 "old text 0"]>
 (<[("d1", 1%nat) := old_chunk 1 "old text 1"]>
 (<[("d1", 2%nat) := old_chunk 2 "old text 2"]>
    (∅ : gmap (string * nat) Chunk))).

Definition world (writable : bool) : State (Store bool) :=
  MkState (MkStore stored indexed writable) ∅.

Definition upload : UploadFile :=
  {| upload_filename := Some "notes.TXT"; content := Returned "some notes" |}.
End Scenario.

(** ** The query endpoints

    The endpoints of the file that read the metadata store: search, count,
    fetch of one record, listing.  Their answers are dicts of other shapes
    than [Response]. *)
Module Queries.

(** A [datetime], as the validators of [SearchQuery] leave it in the
    query. *)
Record DateTime : Type := {
  year : Z; month : Z; day : Z; hour : Z; minute : Z; second : Z
}.

(** A validated [SearchQuery]. *)
Record SearchQuery : Type := {
  q_user_id : option string;
  q_is_public : option bool;
  q_min_date : option DateTime;
  q_max_date : option DateTime;
  q_filename : option string;
  q_file_extension : option string;
  q_size : option Z;
  q_start : option Z;
  q_sort_by : option string;
  q_sort_order : option Z
}.

(** The answer of [/document/search]. *)
Record SearchResponse : Type := {
  search_status : string;
  search_data : list Document;
  search_total : nat;
  search_message : string
}.

(** The answer of [/document/count]. *)
Record CountResponse : Type := {
  count_status : string;
  count_count : Z;
  count_message : string
}.

(** The answer of [GET /document/{document_id}]; [None] is the empty dict
    of the error answers. *)
Record GetResponse : Type := {
  get_status : string;
  get_data : option Document;
  get_message : string
}.

(** The answer of [/documents]. *)
Record ListResponse : Type := {
  list_status : string;
  list_data : list Document;
  list_message : string
}.

(** [str(e)] of the [NameError] raised when the global
    [list_user_documents] is looked up: the module neither imports nor
    defines that name. *)
Definition NameError_list_user_documents : string :=
  "name 'list_user_documents' is not defined".

(** The two queries of [models.documents] the endpoints call, with the
    keyword arguments each is given. *)
Class QueryCollaborators (Ext : Type) : Type := {
  search_documents :
    option string -> option bool -> option DateTime -> option DateTime ->
    option string -> option string -> option Z -> option Z ->
    option string -> option Z -> Ext -> Outcome (list Document) * Ext;
  count_documents :
    option string -> option bool -> option DateTime -> option DateTime ->
    option string -> option string -> Ext -> Outcome Z * Ext
}.

Section Endpoints.
Context {Ext : Type}.

(** [POST /document/search] *)
Definition search_documents_route `{QueryCollaborators Ext} (query : SearchQuery)
    (e : Ext) : Outcome SearchResponse * Ext :=
  match search_documents (q_user_id query) (q_is_public query) (q_min_date query)
          (q_max_date query) (q_filename query) (q_file_extension query)
          (q_size query) (q_start query) (q_sort_by query) (q_sort_order query) e
  with
  | (Returned results, e') =>
      (Returned {| search_status := "success";
                   search_data := results;
                   search_total := length results;
                   search_message := "Documents fetched successfully" |}, e')
  | (Raised (Exception msg), e') =>
      (Returned {| search_status := "error";
                   search_data := [];
                   search_total := 0;
                   search_message := msg |}, e')
  | (Raised CancelledError, e') => (Raised CancelledError, e')
  end.

(** [POST /document/count] *)
Definition count_documents_route `{QueryCollaborators Ext} (query : SearchQuery)
    (e : Ext) : Outcome CountResponse * Ext :=
  match count_documents (q_user_id query) (q_is_public query) (q_min_date query)
          (q_max_date query) (q_filename query) (q_file_extension query) e
  with
  | (Returned total, e') =>
      (Returned {| count_status := "success";
                   count_count := total;
                   count_message := "Count fetched successfully" |}, e')
  | (Raised (Exception msg), e') =>
      (Returned {| count_status := "error";
                   count_count := 0;
                   count_message := msg |}, e')
  | (Raised CancelledError, e') => (Raised CancelledError, e')
  end.

(** [GET /document/{document_id}] *)
Definition get_document_route `{Collaborators Ext} (document_id : string)
  : M Ext GetResponse :=
  try_except
    (document <- call (get_document_call document_id)
                      (fun _ => get_document document_id) ;;
     match document with
     | None =>
         ret {| get_status := "error"; get_data := None;
                get_message := "Document not found" |}
     | Some document =>
         ret {| get_status := "success"; get_data := Some document;
                get_message := "Document fetched successfully" |}
     end)
    (fun e => ret {| get_status := "error"; get_data := None; get_message := e |}).

(** [GET /documents].  The call of line 298 names [list_user_documents],
    which is bound nowhere in the module: looking the name up raises
    [NameError] before anything is called. *)
Definition list_documents (user_id : string) (page limit : Z) (sort_by : string)
    (sort_order : Z) : M Ext ListResponse :=
  try_except
    (if bool_decide (sort_by ∉ ["created_date"; "questions_count"])
     then raise (Exception
                   "sort_by must be either 'created_date' or 'questions_count'")
     else if bool_decide (sort_order ∉ [-1; 1])
     then raise (Exception
                   "sort_order must be either -1 (descending) or 1 (ascending)")
     else
       documents <- raise (Exception NameError_list_user_documents) ;;
       ret {| list_status := "success"; list_data := documents;
              list_message := "Documents fetched successfully" |})
    (fun e => ret {| list_status := "error"; list_data := []; list_message := e |}).
End Endpoints.

(** The query with other paging and ordering fields. *)
Definition with_paging (query : SearchQuery) (size start : option Z)
    (sort_by : option string) (sort_order : option Z) : SearchQuery :=
  {| q_user_id := q_user_id query; q_is_public := q_is_public query;
     q_min_date := q_min_date query; q_max_date := q_max_date query;
     q_filename := q_filename query; q_file_extension := q_file_extension query;
     q_size := size; q_start := start;
     q_sort_by := sort_by; q_sort_order := sort_order |}.

End Queries.

(** ** The deployment with a blob store that is cancelled or down *)
Module Faults.
Import SpecModel.

(** The deployment of [Scenario] where storing the uploaded content ends
    the way [how] says. *)
Definition cfg_store (how : Exc) : Setting bool := {|
  chunk := chunk Scenario.cfg;
  http_get := http_get Scenario.cfg;
  temp_name := temp_name Scenario.cfg;
  extract_pdf := extract_pdf Scenario.cfg;
  extract_docx := extract_docx Scenario.cfg;
  extract_text := extract_text Scenario.cfg;
  store_blob := fun _ e => (Raised how, e);
  new_id := new_id Scenario.cfg
|}.

End Faults.

(** * Properties of the endpoints *)

(** ** Running endpoint code symbolically *)

Section Files.
Implicit Types (fs : gmap nat string) (p q : nat) (cs : list string).

Lemma written_lookup p cs fs x :
  fs !! p = Some x -> written p cs fs !! p = Some (foldl String.append x cs).
Proof.
  revert fs x. induction cs as [|c cs IH]; intros fs x Hx; simpl; [done|].
  apply IH. rewrite Hx. simpl. by rewrite lookup_insert_eq.
Qed.

Lemma written_lookup_ne p q cs fs :
  p <> q -> written p cs fs !! q = fs !! q.
Proof.
  revert fs. induction cs as [|c cs IH]; intros fs Hne; simpl; [done|].
  rewrite IH by done. by rewrite lookup_insert_ne.
Qed.

Lemma created_lookup p cs fs :
  written p cs (<[p := ""]> fs) !! p = Some (foldl String.append "" cs).
Proof. apply written_lookup. by rewrite lookup_insert_eq. Qed.

(** Removing a temporary file undoes its creation and every write. *)
Lemma delete_written p cs fs :
  delete p (written p cs (<[p := ""]> fs)) = delete p fs.
Proof.
  apply map_eq. intros q. destruct (decide (p = q)) as [->|Hne].
  - by rewrite !lookup_delete_eq.
  - rewrite !lookup_delete_ne by done. rewrite written_lookup_ne by done.
    by rewrite lookup_insert_ne.
Qed.

(** The temporary file after the download: its content is the chunks of
    the body, appended in the order they came. *)
Lemma written_created p cs fs :
  written p cs (<[p := ""]> fs) = <[p := foldl String.append "" cs]> fs.
Proof.
  apply map_eq. intros q. destruct (decide (p = q)) as [->|Hne].
  - by rewrite created_lookup, lookup_insert_eq.
  - rewrite written_lookup_ne by done. by rewrite !lookup_insert_ne.
Qed.
End Files.

Lemma append_empty_l (t : string) : "" +:+ t = t.
Proof. reflexivity. Qed.

Lemma aiter_bytes_write_run {Ext} tmp chunks err (s : State Ext) :
  aiter_bytes_write tmp chunks err s =
  MkRun (match err with Some e => Raised e | None => Returned tt end)
        (MkState (ext s) (written tmp chunks (files s))) [].
Proof.
  revert s. induction chunks as [|c rest IH]; intros s; simpl.
  - destruct s, err; reflexivity.
  - unfold bind, tmp_write. rewrite IH. simpl. destruct err; reflexivity.
Qed.

(** One step of evaluation: reduce, use what is known of a collaborator's
    answer, or split on it. *)
Ltac exec_step :=
  first
    [ rewrite aiter_bytes_write_run
    | rewrite created_lookup
    | rewrite delete_written
    | rewrite lookup_insert_eq
    | rewrite lookup_delete_eq
    | rewrite insert_insert_eq
    | rewrite append_empty_l
    | progress (cbn beta iota zeta delta [ended ext files default from_option id negb])
    | match goal with
      | |- context [bool_decide (is_Some (Some ?x))] =>
          rewrite (bool_decide_eq_true_2 (is_Some (Some x))) by eauto
      | H : ?x = _ |- context [match ?x with _ => _ end] => rewrite H
      | |- context [match bool_decide ?P with _ => _ end] =>
          destruct (decide P);
          [rewrite (bool_decide_eq_true_2 P) by assumption
          |rewrite (bool_decide_eq_false_2 P) by assumption]
      | |- context [match ?x with _ => _ end] =>
          lazymatch x with
          | context [match _ with _ => _ end] => fail
          | _ => destruct x eqn:?
          end
      end ].

Ltac exec := repeat exec_step.

Ltac unfold_endpoint :=
  unfold reprocess_to_pinecone, delete_document_route, upload_document,
    update_document_route, try_except_binding, upload_open_tmp, upload_store,
    upload_except, try_except, try_finally, download_document_file,
    process_by_extension, bind, call, os_path_exists, os_remove, create_file,
    tmp_write, ret, raise.

(** Membership in an explicit list of events, case by case. *)
Ltac in_events H :=
  simpl in H;
  repeat (apply elem_of_cons in H as [H|H]; [try congruence|]);
  try (apply elem_of_nil in H; destruct H).

Section Reprocess.
Context {Ext : Type} `{Collaborators Ext}.

(** C4.  When the content of a stored document was fetched and its
    extension is none of pdf, docx, doc, md, txt, reprocessing answers the
    error "Unsupported file type: <extension>"; after the three calls of
    the fetch it calls nothing but [os.remove] on the temporary file: no
    extractor, no index writer, no metadata write, and the outside state
    is the one the fetch left. *)
Theorem unsupported_extension_rejected
    (id : string) (s : State Ext) (d : Document) (e1 e2 e3 : Ext)
    (response : HttpResponse) (tmp : nat) :
  get_document id (ext s) = (Returned (Some d), e1) ->
  client_stream (file_url d) e1 = (Returned response, e2) ->
  status_code response = 200 ->
  NamedTemporaryFile ("." +:+ file_extension d) e2 = (Returned tmp, e3) ->
  body_error response = None ->
  file_extension d ∉ supported_extensions ->
  reprocess_to_pinecone id s =
  MkRun (Returned (error_response ("Unsupported file type: " +:+ file_extension d)))
        (MkState e3 (delete tmp (files s)))
        [(get_document_call id, Done);
         (client_stream_call (file_url d), Done);
         (NamedTemporaryFile_call ("." +:+ file_extension d), Done);
         (os_remove_call tmp, Done)].
Proof.
  intros Hget Hstream Hstatus Htmp Hbody Hext.
  unfold supported_extensions in Hext.
  repeat (apply not_elem_of_cons in Hext as [? Hext]).
  unfold_endpoint. exec; try done.
  all: try congruence.
  all: match goal with Hin : _ ∈ _ :: _ |- _ => in_events Hin end.
Qed.

(** C5.  When the fetch fails -- no metadata record, a status other than
    200, or a body that breaks before its end -- reprocessing answers the
    error with the message of that failure; the calls made are those of
    the fetch up to the failure, each made once: no index write, no
    second attempt. *)
Theorem fetch_failure_reported
    (id : string) (s : State Ext) (msg : string) (e' : Ext)
    (calls : list (Call * Ended)) :
  fetch_failure id s msg e' calls ->
  outcome (reprocess_to_pinecone id s) = Returned (error_response msg)
  /\ emitted (reprocess_to_pinecone id s) = calls
  /\ ext (final (reprocess_to_pinecone id s)) = e'
  /\ Forall (fun ev => index_write ev.1 = false) calls
  /\ NoDup calls.*1.
Proof.
  intros Hfail.
  destruct Hfail; unfold_endpoint; exec; try done.
  all: repeat split; try (repeat constructor; fail).
  all: simpl;
    repeat (apply NoDup_cons; split; [intros Hin; in_events Hin|]);
    apply NoDup_nil_2.
Qed.

(** C3.  A body that breaks before its end, after the temporary file was
    created: reprocessing answers an error and the temporary file is still
    there, with what was written to it; no [os.remove] was called. *)
Theorem broken_download_keeps_temp_file
    (id : string) (s : State Ext) (d : Document) (e1 e2 e3 : Ext)
    (response : HttpResponse) (tmp : nat) (msg : string) :
  get_document id (ext s) = (Returned (Some d), e1) ->
  client_stream (file_url d) e1 = (Returned response, e2) ->
  status_code response = 200 ->
  NamedTemporaryFile ("." +:+ file_extension d) e2 = (Returned tmp, e3) ->
  body_error response = Some (Exception msg) ->
  outcome (reprocess_to_pinecone id s) = Returned (error_response msg)
  /\ files (final (reprocess_to_pinecone id s)) !! tmp
     = Some (foldl String.append "" (body response))
  /\ Forall (fun ev => removal_of tmp ev.1 = false)
            (emitted (reprocess_to_pinecone id s)).
Proof.
  intros Hget Hstream Hstatus Htmp Hbody.
  unfold_endpoint. exec; try done.
  cbn. rewrite created_lookup. repeat split. repeat constructor.
Qed.

(** C6.  When the [add_document] call of a reprocessing raised, whatever
    it had written by then, the answer is the error response with the
    writer's message, and no call that writes metadata was made. *)
Theorem failed_index_write_reported
    (id : string) (s : State Ext) (documents : list string)
    (owner : string) (pub : bool) (fname msg : string) :
  (add_document_call documents owner pub id fname, Failed (Exception msg))
    ∈ emitted (reprocess_to_pinecone id s) ->
  outcome (reprocess_to_pinecone id s) = Returned (error_response msg)
  /\ Forall (fun ev => metadata_write ev.1 = false)
            (emitted (reprocess_to_pinecone id s)).
Proof.
  destruct (reprocess_to_pinecone id s) as [o sf evs] eqn:Hrun.
  cbn [emitted outcome]. revert Hrun.
  unfold_endpoint. exec.
  all: intros [= <- <- <-] Hin; in_events Hin.
  all: split; [congruence|repeat constructor].
Qed.
End Reprocess.

Section ReprocessSuccess.
Context {Ext : Type} `{Collaborators Ext}.

(** What a reprocessing that answers success has done, step by step: every
    collaborator returned, the extractor is the one of the record's
    extension and worked on the downloaded body, and the run is the one
    written out. *)
Lemma reprocess_success_inv (id : string) (s : State Ext) :
  succeeded (reprocess_to_pinecone id s) ->
  exists d e1 response e2 tmp e3 documents e4 pc d2 e5 e6,
    get_document id (ext s) = (Returned (Some d), e1)
    /\ client_stream (file_url d) e1 = (Returned response, e2)
    /\ status_code response = 200
    /\ body_error response = None
    /\ NamedTemporaryFile ("." +:+ file_extension d) e2 = (Returned tmp, e3)
    /\ extracted_by (file_extension d) tmp
         (<[tmp := foldl String.append "" (body response)]> (files s))
         e3 pc documents e4
    /\ get_document id e4 = (Returned (Some d2), e5)
    /\ add_document documents (user_id d2) (is_public d2) id (filename d2) e5
       = (Returned tt, e6)
    /\ reprocess_to_pinecone id s
       = MkRun (Returned (success_response
                            ("Successfully reprocessed "
                             +:+ str_of_nat (length documents)
                             +:+ " documents into Pinecone")))
               (MkState e6 (delete tmp (files s)))
               [(get_document_call id, Done);
                (client_stream_call (file_url d), Done);
                (NamedTemporaryFile_call ("." +:+ file_extension d), Done);
                (pc, Done);
                (get_document_call id, Done);
                (add_document_call documents (user_id d2) (is_public d2) id
                   (filename d2), Done);
                (os_remove_call tmp, Done)].
Proof.
  intros (resp & Hout & Hsuccess). revert Hout.
  destruct (reprocess_to_pinecone id s) as [o sf evs] eqn:Hrun.
  cbn [outcome]. revert Hrun.
  unfold_endpoint. exec.
  all: intros [= <- <- <-] [= <-]; try discriminate Hsuccess.
  all: repeat match goal with
         | Hcall : context [written _ _ (<[_ := ""]> _)] |- _ =>
             rewrite written_created in Hcall
         | u : unit |- _ => destruct u
         end.
  all: eexists _, _, _, _, _, _, _, _, _, _, _, _.
  all: split; [first [reflexivity|eassumption]|]; split; [eassumption|].
  all: split; [by apply dec_stable|]; split; [assumption|].
  all: split; [eassumption|].
  all: split;
    [unfold extracted_by;
     first [ left; split; [assumption|]; split; [reflexivity|eassumption]
           | right; left; split; [assumption|]; split; [reflexivity|eassumption]
           | right; right; split; [assumption|]; split; [reflexivity|eassumption] ]|].
  all: split; [eassumption|]; split; [eassumption|reflexivity].
Qed.

End ReprocessSuccess.

(** An [except Exception] clause wraps the whole of these two endpoints:
    what leaves them is an answer or a cancellation. *)
Lemma reprocess_catches_exceptions {Ext} `{Collaborators Ext} id (s : State Ext) e :
  outcome (reprocess_to_pinecone id s) = Raised e -> e = CancelledError.
Proof.
  destruct (reprocess_to_pinecone id s) as [o sf evs] eqn:Hrun.
  cbn [outcome]. revert Hrun.
  unfold_endpoint. exec.
  all: intros [= <- <- <-]; congruence.
Qed.

Lemma delete_catches_exceptions {Ext} `{Collaborators Ext} id (s : State Ext) e :
  outcome (delete_document_route id s) = Raised e -> e = CancelledError.
Proof.
  destruct (delete_document_route id s) as [o sf evs] eqn:Hrun.
  cbn [outcome]. revert Hrun.
  unfold_endpoint. exec.
  all: intros [= <- <- <-]; congruence.
Qed.

(** X7.  Every delete asks for the chunks first: the metadata deletion is
    called only once [delete_chunks] has returned. *)
Lemma delete_chunks_first {Ext} `{Collaborators Ext} id (s : State Ext) :
  (exists e, emitted (delete_document_route id s) = [(delete_chunks_call id, Failed e)])
  \/ (exists e, emitted (delete_document_route id s)
                = [(delete_chunks_call id, Done); (delete_document_call id, e)]).
Proof.
  unfold_endpoint. exec; cbn; eauto.
Qed.

(** X5.  Once the fetch has completed, the temporary file is removed, once,
    on every way out of the endpoint, a cancellation included. *)
Lemma fetched_temp_file_removed_once {Ext} `{Collaborators Ext}
    (id : string) (s : State Ext) (d : Document) (e1 e2 e3 : Ext)
    (response : HttpResponse) (tmp : nat) :
  get_document id (ext s) = (Returned (Some d), e1) ->
  client_stream (file_url d) e1 = (Returned response, e2) ->
  status_code response = 200 ->
  NamedTemporaryFile ("." +:+ file_extension d) e2 = (Returned tmp, e3) ->
  body_error response = None ->
  files (final (reprocess_to_pinecone id s)) = delete tmp (files s)
  /\ length (filter (fun ev => removal_of tmp ev.1 = true)
                    (emitted (reprocess_to_pinecone id s))) = 1%nat.
Proof.
  intros Hget Hstream Hstatus Htmp Hbody.
  unfold_endpoint. exec; try done.
  all: cbn; rewrite ?bool_decide_eq_true_2 by done; done.
Qed.

Section Upload.
Context {Ext : Type} `{Collaborators Ext}.

(** Every call an upload makes is one of: opening the temporary file,
    reading the upload, [add_doc_with_link], [os.remove], [get_document].
    None is an extractor and none is an index writer. *)
Theorem upload_makes_no_index_call
    (owner : string) (pub : bool) (file : UploadFile) (s : State Ext) :
  Forall (fun ev => upload_call ev.1 = true
                    /\ extraction ev.1 = false
                    /\ index_write ev.1 = false)
         (emitted (upload_document owner pub file s)).
Proof.
  unfold_endpoint. exec.
  all: cbn; repeat constructor.
Qed.

(** C8.  When [NamedTemporaryFile] raises, the [except] clause of the
    upload reads [temp_file_path] before it was bound: the endpoint does
    not answer, it raises [UnboundLocalError]. *)
Theorem upload_handler_raises_unbound_local
    (owner : string) (pub : bool) (file : UploadFile) (fname : string)
    (s : State Ext) (msg : string) (e1 : Ext) :
  upload_filename file = Some fname ->
  NamedTemporaryFile (lower (splitext_ext fname)) (ext s)
    = (Raised (Exception msg), e1) ->
  outcome (upload_document owner pub file s)
    = Raised (Exception UnboundLocalError_temp_file_path)
  /\ ~ answered (upload_document owner pub file s).
Proof.
  intros Hname Htmp.
  assert (outcome (upload_document owner pub file s)
          = Raised (Exception UnboundLocalError_temp_file_path)) as Hout.
  { unfold_endpoint. exec. done. }
  split; [done|]. intros [resp Hresp]. congruence.
Qed.

(** The same happens when the upload carries no file name. *)
Lemma upload_without_filename_raises
    (owner : string) (pub : bool) (file : UploadFile) (s : State Ext) :
  upload_filename file = None ->
  outcome (upload_document owner pub file s)
    = Raised (Exception UnboundLocalError_temp_file_path).
Proof. intros Hname. unfold_endpoint. exec. done. Qed.

(** X11.  A cancellation while [add_doc_with_link] runs passes the
    [except Exception] clause: the temporary file stays. *)
Lemma cancelled_upload_keeps_temp_file
    (owner : string) (pub : bool) (file : UploadFile) (fname data : string)
    (s : State Ext) (tmp : nat) (e1 e2 : Ext) :
  upload_filename file = Some fname ->
  content file = Returned data ->
  NamedTemporaryFile (lower (splitext_ext fname)) (ext s) = (Returned tmp, e1) ->
  add_doc_with_link owner pub fname tmp (<[tmp := data]> (files s)) e1
    = (Raised CancelledError, e2) ->
  outcome (upload_document owner pub file s) = Raised CancelledError
  /\ files (final (upload_document owner pub file s)) !! tmp = Some data.
Proof.
  intros Hname Hread Htmp Hadd.
  unfold_endpoint. exec.
  split; [done|]. cbn. apply lookup_insert_eq.
Qed.
End Upload.

(** ** With the collaborators of the specification *)

Section SpecTheory.
Import SpecModel.
Context {Env : Type} (cfg : Setting Env).
Local Open Scope nat_scope.

Local Abbreviation reprocess :=
  (@reprocess_to_pinecone (Store Env) (spec_collaborators cfg)).
Local Abbreviation delete_route :=
  (@delete_document_route (Store Env) (spec_collaborators cfg)).

Implicit Types (idx : gmap (string * nat) Chunk) (st : Store Env).




Lemma purge_leaves_none id idx : chunks_of id (purge id idx) = ∅.
Proof.
  apply map_empty_filter_2. intros [id' k] c Hc Hid. simpl in *.
  apply map_lookup_filter_Some in Hc as [_ Hne]. simpl in *. done.
Qed.


Ltac unfold_spec :=
  cbn [get_document delete_document update_document add_doc_with_link
       delete_chunks process_pdf process_docx process_text_file add_document
       client_stream NamedTemporaryFile spec_collaborators];
  unfold spec_get_document, spec_delete_document, spec_delete_chunks,
    spec_add_document, on_env.

Ltac exec_spec :=
  repeat first [ progress (cbn [meta index env]) | exec_step ].









(** C7.  A delete calls [delete_chunks] and, once that has returned,
    [delete_document].  With the purge of section 4.4 and the store of
    section 6, after a delete that answers success the index holds no
    chunk of the document and the store holds no record of it. *)
Theorem delete_purges_then_forgets (id : string) (s : State (Store Env)) :
  emitted (delete_route id s)
  = [(delete_chunks_call id, Done); (delete_document_call id, Done)]
  /\ (succeeded (delete_route id s) ->
      chunks_of id (index (ext (final (delete_route id s)))) = ∅
      /\ meta (ext (final (delete_route id s))) !! id = None).
Proof.
  unfold succeeded.
  destruct (delete_route id s) as [o sf evs] eqn:Hrun.
  cbn [emitted outcome final]. revert Hrun.
  unfold_endpoint. unfold_spec. exec_spec.
  all: intros [= <- <- <-]; split; [reflexivity|].
  all: intros (resp & [= <-] & Hsuccess); try discriminate Hsuccess.
  cbn [ext index meta]. split; [apply purge_leaves_none|apply lookup_delete_eq].
Qed.
(** C10.  Every call an upload makes is one of: opening the temporary
    file, reading the upload, [add_doc_with_link], [os.remove],
    [get_document]; none is an extractor, none an index writer.  With
    [add_doc_with_link] as the storing of the content and the creation of
    the metadata record, an upload leaves the index as it was, whatever its
    outcome, and the metadata store as it was or with the one new record:
    no chunk of the uploaded document is in the index unless it was there
    before. *)
Theorem upload_stores_without_indexing (owner : string) (pub : bool)
    (file : UploadFile) (s : State (Store Env)) :
  Forall (fun ev => upload_call ev.1 = true
                    /\ extraction ev.1 = false
                    /\ index_write ev.1 = false)
         (emitted (@upload_document (Store Env) (spec_collaborators cfg)
                     owner pub file s))
  /\ index (ext (final (@upload_document (Store Env) (spec_collaborators cfg)
                          owner pub file s)))
     = index (ext s)
  /\ (meta (ext (final (@upload_document (Store Env) (spec_collaborators cfg)
                          owner pub file s)))
      = meta (ext s)
      \/ exists d,
           meta (ext (final (@upload_document (Store Env) (spec_collaborators cfg)
                               owner pub file s)))
           = <[new_id cfg (meta (ext s)) := d]> (meta (ext s))).
Proof.
  split; [apply (upload_makes_no_index_call (H := spec_collaborators cfg))|].
  unfold_endpoint. unfold_spec. unfold spec_add_doc_with_link. exec_spec.
  all: split; [reflexivity|]; cbn [ext meta]; eauto.
Qed.
End SpecTheory.

(** ** The deployment of [Scenario] *)

Section Deployment.
Import SpecModel Scenario.
Local Open Scope nat_scope.

Local Abbreviation reprocess :=
  (@reprocess_to_pinecone (Store bool) (spec_collaborators cfg)).
Local Abbreviation outside := (MkStore stored indexed true).

(** The chunker on the example of section 8: 2500 characters, windows of
    1000 overlapping by 100, give three chunks of 1000, 1000 and 700
    characters. *)
Example chunker_2500 :
  String.length <$> chunker 1000 100 [string_of_list_ascii (repeat "a"%char 2500)]
  = [1000; 1000; 700].
Proof. vm_compute. reflexivity. Qed.

Example chunker_empty : chunker 1000 100 [] = [] /\ chunker 1000 100 [""; ""] = [].
Proof. split; reflexivity. Qed.


Example reprocess_replaces_d1 :
  size (chunks_of "d1" (index (ext (final (reprocess "d1" (world true)))))) = 1
  /\ index (ext (final (reprocess "d1" (world true)))) !! ("d1", 0)
     = Some (mk_chunk "d1" 0 "new" "u1" true "a.txt")
  /\ index (ext (final (reprocess "d1" (world true)))) !! ("d1", 2) = None.
Proof. repeat split; vm_compute; reflexivity. Qed.



(** C3 on the deployment: the download of d3 breaks after its first
    chunk; the temporary file 7 outlives the request. *)
Lemma broken_download_keeps_temp_file_witness :
  outcome (reprocess "d3" (world true))
  = Returned (error_response "peer closed connection")
  /\ files (final (reprocess "d3" (world true))) !! 7 = Some "par"
  /\ Forall (fun ev => removal_of 7 ev.1 = false)
            (emitted (reprocess "d3" (world true))).
Proof.
  apply (broken_download_keeps_temp_file (H := spec_collaborators cfg)
           "d3" (world true) (doc "http://blob/broken" "txt" "c.txt" 0)
           outside outside outside (blob "http://blob/broken") 7
           "peer closed connection");
    vm_compute; reflexivity.
Defined.

(** C4 on the deployment: d4 has the extension xyz. *)
Lemma unsupported_extension_rejected_witness :
  reprocess "d4" (world true)
  = MkRun (Returned (error_response "Unsupported file type: xyz"))
          (MkState outside (delete 7 ∅))
          [(get_document_call "d4", Done);
           (client_stream_call "http://blob/short", Done);
           (NamedTemporaryFile_call ".xyz", Done);
           (os_remove_call 7, Done)].
Proof.
  apply (unsupported_extension_rejected (H := spec_collaborators cfg)
           "d4" (world true) (doc "http://blob/short" "xyz" "d.xyz" 0)
           outside outside outside (blob "http://blob/short") 7);
    try (vm_compute; reflexivity).
  intros Hin. in_events Hin.
Defined.

(** C5 on the deployment: the URL of d5 answers 404. *)
Lemma fetch_failure_reported_witness :
  outcome (reprocess "d5" (world true))
  = Returned (error_response "Failed to download file from URL")
  /\ emitted (reprocess "d5" (world true))
     = [(get_document_call "d5", Done); (client_stream_call "http://blob/gone", Done)]
  /\ ext (final (reprocess "d5" (world true))) = outside.
Proof.
  assert (fetch_failure (H := spec_collaborators cfg) "d5" (world true)
            "Failed to download file from URL" outside
            [(get_document_call "d5", Done);
             (client_stream_call "http://blob/gone", Done)]) as Hfail.
  { apply (bad_status (H := spec_collaborators cfg) "d5" (world true)
             (doc "http://blob/gone" "pdf" "e.pdf" 0) outside
             (blob "http://blob/gone") outside);
      [vm_compute; reflexivity | vm_compute; reflexivity | vm_compute; discriminate]. }
  destruct (fetch_failure_reported (H := spec_collaborators cfg) _ _ _ _ _ Hfail)
    as (Hout & Hev & Hext & _).
  exact (conj Hout (conj Hev Hext)).
Defined.

(** C6 on the deployment: the writer fails after the first of the three
    chunks of d2. *)
Lemma failed_index_write_reported_witness :
  (add_document_call ["0123456789abcdefghijABCDE"] "u1" true "d2" "b.md",
   Failed (Exception "index write failed"))
    ∈ emitted (@reprocess_to_pinecone _ (failing_collaborators cfg 1) "d2" (world true))
  /\ outcome (@reprocess_to_pinecone _ (failing_collaborators cfg 1) "d2" (world true))
     = Returned (error_response "index write failed")
  /\ Forall (fun ev => metadata_write ev.1 = false)
            (emitted (@reprocess_to_pinecone _ (failing_collaborators cfg 1)
                        "d2" (world true))).
Proof.
  assert ((add_document_call ["0123456789abcdefghijABCDE"] "u1" true "d2" "b.md",
           Failed (Exception "index write failed"))
            ∈ emitted (@reprocess_to_pinecone _ (failing_collaborators cfg 1)
                         "d2" (world true))) as Hin.
  { apply list_elem_of_In. vm_compute. tauto. }
  split; [exact Hin|].
  exact (failed_index_write_reported (H := failing_collaborators cfg 1) _ _ _ _ _ _ _ Hin).
Defined.

(** C7 on the deployment: deleting d1 and its three chunks. *)
Lemma delete_purges_then_forgets_witness :
  succeeded (@delete_document_route _ (spec_collaborators cfg) "d1" (world true))
  /\ chunks_of "d1"
       (index (ext (final (@delete_document_route _ (spec_collaborators cfg)
                             "d1" (world true))))) = ∅
  /\ meta (ext (final (@delete_document_route _ (spec_collaborators cfg)
                         "d1" (world true)))) !! "d1" = None.
Proof.
  assert (succeeded (@delete_document_route _ (spec_collaborators cfg)
                       "d1" (world true))) as Hok
    by (eexists; split; vm_compute; reflexivity).
  split; [exact Hok|].
  exact (proj2 (delete_purges_then_forgets cfg "d1" (world true)) Hok).
Defined.

(** C8 on the deployment: an upload while the temporary directory is
    full. *)
Lemma upload_handler_raises_unbound_local_witness :
  outcome (@upload_document _ (spec_collaborators cfg) "u1" true upload (world false))
  = Raised (Exception UnboundLocalError_temp_file_path)
  /\ ~ answered (@upload_document _ (spec_collaborators cfg) "u1" true upload
                   (world false)).
Proof.
  apply (upload_handler_raises_unbound_local (H := spec_collaborators cfg)
           "u1" true upload "notes.TXT" (world false)
           "[Errno 28] No space left on device" (MkStore stored indexed false));
    vm_compute; reflexivity.
Defined.
End Deployment.

(** * Further properties of the endpoints *)

Section MoreReprocess.
Context {Ext : Type} `{Collaborators Ext}.

(** X1.  Whatever the collaborators do, a reprocessing ends with an answer
    or with the cancellation of the request: no [Exception] leaves it. *)
Theorem reprocess_answers_unless_cancelled (id : string) (s : State Ext) :
  answered (reprocess_to_pinecone id s)
  \/ outcome (reprocess_to_pinecone id s) = Raised CancelledError.
Proof.
  unfold answered.
  destruct (outcome (reprocess_to_pinecone id s)) as [resp|e] eqn:Hout.
  - left. by exists resp.
  - right. by rewrite (reprocess_catches_exceptions id s e Hout).
Qed.

(** X2.  A reprocessing answers success exactly when its [add_document]
    call returned: an error answer means the index writer was not called or
    raised, and once the writer has returned nothing turns the answer into
    an error. *)
Theorem reprocess_success_iff_indexed (id : string) (s : State Ext) :
  succeeded (reprocess_to_pinecone id s)
  <-> exists documents owner pub fname,
        (add_document_call documents owner pub id fname, Done)
          ∈ emitted (reprocess_to_pinecone id s).
Proof.
  unfold succeeded.
  destruct (reprocess_to_pinecone id s) as [o sf evs] eqn:Hrun.
  cbn [emitted outcome]. revert Hrun.
  unfold_endpoint. exec.
  all: intros [= <- <- <-]; split.
  all: first
    [ intros (resp & Hout & Hst);
      first [ discriminate Hout
            | injection Hout as <-;
              first [ discriminate Hst
                    | eexists _, _, _, _; cbn;
                      repeat first [apply list_elem_of_here
                                   | apply list_elem_of_further] ] ]
    | intros (documents & owner & pub & fname & Hin);
      first [ in_events Hin; fail
            | eexists; split; reflexivity ] ].
Qed.

(** X3.  The calls of a reprocessing that answers success are seven, each
    returned, in this order: [get_document]; [client.stream] on the
    [file_url] of the record that call returned; [NamedTemporaryFile] with
    the suffix made of that record's extension; the extractor of that
    extension, on the temporary file holding the body; [get_document]
    again; [add_document] with what the extractor returned and the owner,
    visibility and file name of the record of that second read;
    [os.remove] of the temporary file. *)
Theorem reprocess_success_calls (id : string) (s : State Ext) :
  succeeded (reprocess_to_pinecone id s) ->
  exists d e1 response e2 tmp e3 documents e4 pc d2 e5 e6,
    get_document id (ext s) = (Returned (Some d), e1)
    /\ client_stream (file_url d) e1 = (Returned response, e2)
    /\ NamedTemporaryFile ("." +:+ file_extension d) e2 = (Returned tmp, e3)
    /\ extracted_by (file_extension d) tmp
         (<[tmp := foldl String.append "" (body response)]> (files s))
         e3 pc documents e4
    /\ get_document id e4 = (Returned (Some d2), e5)
    /\ add_document documents (user_id d2) (is_public d2) id (filename d2) e5
       = (Returned tt, e6)
    /\ emitted (reprocess_to_pinecone id s)
       = [(get_document_call id, Done);
          (client_stream_call (file_url d), Done);
          (NamedTemporaryFile_call ("." +:+ file_extension d), Done);
          (pc, Done);
          (get_document_call id, Done);
          (add_document_call documents (user_id d2) (is_public d2) id (filename d2),
           Done);
          (os_remove_call tmp, Done)].
Proof.
  intros Hok.
  destruct (reprocess_success_inv id s Hok)
    as (d & e1 & response & e2 & tmp & e3 & documents & e4 & pc & d2 & e5 & e6
        & Hget & Hstream & _ & _ & Htmp & Hextract & Hget2 & Hadd & Hrun).
  exists d, e1, response, e2, tmp, e3, documents, e4, pc, d2, e5, e6.
  rewrite Hrun. by repeat split.
Qed.

(** X4.  A completed download: the answer of [download_document_file] is
    the temporary file and the record's extension; the file holds the
    chunks of the body appended in the order they came; the calls are the
    metadata read, the request and the opening of the file. *)
Theorem download_writes_body_in_order
    (id : string) (s : State Ext) (d : Document) (e1 e2 e3 : Ext)
    (response : HttpResponse) (tmp : nat) :
  get_document id (ext s) = (Returned (Some d), e1) ->
  client_stream (file_url d) e1 = (Returned response, e2) ->
  status_code response = 200 ->
  NamedTemporaryFile ("." +:+ file_extension d) e2 = (Returned tmp, e3) ->
  body_error response = None ->
  download_document_file id s
  = MkRun (Returned (Some tmp, file_extension d))
          (MkState e3 (<[tmp := foldl String.append "" (body response)]> (files s)))
          [(get_document_call id, Done);
           (client_stream_call (file_url d), Done);
           (NamedTemporaryFile_call ("." +:+ file_extension d), Done)].
Proof.
  intros Hget Hstream Hstatus Htmp Hbody.
  unfold_endpoint. exec; try done.
  by rewrite written_created.
Qed.
End MoreReprocess.

Section MoreDelete.
Context {Ext : Type} `{Collaborators Ext}.

(** X6.  Whatever the collaborators do, a delete ends with an answer or
    with the cancellation of the request. *)
Theorem delete_answers_unless_cancelled (id : string) (s : State Ext) :
  answered (delete_document_route id s)
  \/ outcome (delete_document_route id s) = Raised CancelledError.
Proof.
  unfold answered.
  destruct (outcome (delete_document_route id s)) as [resp|e] eqn:Hout.
  - left. by exists resp.
  - right. by rewrite (delete_catches_exceptions id s e Hout).
Qed.

(** X8.  Deleting an id the metadata store does not know: the chunks of
    the id are asked to be deleted all the same, before the store reports
    that there is no record, and the answer is the error
    "Document not found". *)
Theorem delete_unknown_document_purges
    (id : string) (s : State Ext) (e1 e2 : Ext) :
  delete_chunks id (ext s) = (Returned tt, e1) ->
  delete_document id e1 = (Returned false, e2) ->
  delete_document_route id s
  = MkRun (Returned (error_response "Document not found"))
          (MkState e2 (files s))
          [(delete_chunks_call id, Done); (delete_document_call id, Done)].
Proof.
  intros Hchunks Hdoc. unfold_endpoint. exec. done.
Qed.
End MoreDelete.

Section MoreWrites.
Context {Ext : Type} `{Collaborators Ext}.

(** X9.  Once its temporary file is open, an upload that ends with an
    answer -- success or error -- has removed that file, by exactly one
    [os.remove]: the files left are those there were, without it. *)
Theorem upload_removes_temp_file_once
    (owner : string) (pub : bool) (file : UploadFile) (fname : string)
    (s : State Ext) (tmp : nat) (e1 : Ext) :
  upload_filename file = Some fname ->
  NamedTemporaryFile (lower (splitext_ext fname)) (ext s) = (Returned tmp, e1) ->
  answered (upload_document owner pub file s) ->
  files (final (upload_document owner pub file s)) = delete tmp (files s)
  /\ length (filter (fun ev => removal_of tmp ev.1 = true)
                    (emitted (upload_document owner pub file s))) = 1%nat.
Proof.
  intros Hname Htmp. unfold answered.
  destruct (upload_document owner pub file s) as [o sf evs] eqn:Hrun.
  cbn [emitted outcome final]. revert Hrun.
  unfold_endpoint. exec.
  all: intros [= <- <- <-] (resp & Hout); try discriminate Hout.
  all: cbn [files]; rewrite ?delete_insert_eq, ?delete_delete_eq.
  all: split; [reflexivity|].
  all: cbn; rewrite ?bool_decide_eq_true_2 by done; reflexivity.
Qed.

(** X10.  An upload of a file with an ASCII name, whose every step
    returns -- [NamedTemporaryFile], the read of the upload,
    [add_doc_with_link], the [os.remove] of line 262, [get_document] --
    answers success with, as data, what [get_document] gives for the id of
    the inserted record, [None] included; the content read from the upload
    is in the temporary file when [add_doc_with_link] runs, and the file is
    removed before the record is read back. *)
Theorem upload_returns_stored_document
    (owner : string) (pub : bool) (file : UploadFile) (fname bytes new_id : string)
    (s : State Ext) (tmp : nat) (e1 e2 e3 : Ext) (document : option Document) :
  upload_filename file = Some fname ->
  ascii_only fname = true ->
  NamedTemporaryFile (lower (splitext_ext fname)) (ext s) = (Returned tmp, e1) ->
  content file = Returned bytes ->
  add_doc_with_link owner pub fname tmp (<[tmp := bytes]> (files s)) e1
    = (Returned new_id, e2) ->
  outcome (os_remove tmp (MkState e2 (<[tmp := bytes]> (files s)))) = Returned tt ->
  get_document new_id e2 = (Returned document, e3) ->
  upload_document owner pub file s
  = MkRun (Returned (success_data document "File uploaded successfully"))
          (MkState e3 (delete tmp (files s)))
          [(NamedTemporaryFile_call (lower (splitext_ext fname)), Done);
           (file_read_call, Done);
           (add_doc_with_link_call owner pub fname tmp, Done);
           (os_remove_call tmp, Done);
           (get_document_call new_id, Done)].
Proof.
  intros Hname Hascii Htmp Hread Hadd Hremove Hget.
  unfold_endpoint. exec.
  by rewrite delete_insert_eq.
Qed.

(** X12.  An update makes one call, [update_document] with the arguments
    of the request, and none to the index writer or to the files; its
    answer is success with the record the store returned, or an error. *)
Theorem update_calls_the_store_only
    (id : string) (fname : option string) (pub : option bool) (s : State Ext) :
  (exists e, emitted (update_document_route id fname pub s)
             = [(update_document_call id fname pub, e)])
  /\ files (final (update_document_route id fname pub s)) = files s
  /\ ((exists d,
         update_document id fname pub (ext s)
         = (Returned (Some d), ext (final (update_document_route id fname pub s)))
         /\ outcome (update_document_route id fname pub s)
            = Returned (success_data (Some d) "Document updated successfully"))
      \/ (exists msg,
            outcome (update_document_route id fname pub s)
            = Returned (error_response msg))
      \/ outcome (update_document_route id fname pub s) = Raised CancelledError).
Proof.
  unfold_endpoint. exec.
  all: cbn; split; [eexists; reflexivity|]; split; [reflexivity|]; eauto.
Qed.
End MoreWrites.

Section QueryTheory.
Import Queries.
Context {Ext : Type}.

(** X13.  The fetch of one record makes one call, [get_document]; it
    leaves the files alone; its answer is success with the record the
    store returned, or an error with empty data; no [Exception] leaves
    it. *)
Theorem get_document_route_reads_once `{Collaborators Ext}
    (id : string) (s : State Ext) :
  (exists e, emitted (get_document_route id s) = [(get_document_call id, e)])
  /\ files (final (get_document_route id s)) = files s
  /\ ((exists d,
         get_document id (ext s)
         = (Returned (Some d), ext (final (get_document_route id s)))
         /\ outcome (get_document_route id s)
            = Returned {| get_status := "success"; get_data := Some d;
                          get_message := "Document fetched successfully" |})
      \/ (exists msg,
            outcome (get_document_route id s)
            = Returned {| get_status := "error"; get_data := None;
                          get_message := msg |})
      \/ outcome (get_document_route id s) = Raised CancelledError).
Proof.
  unfold get_document_route. unfold_endpoint. exec.
  all: cbn; split; [eexists; reflexivity|]; split; [reflexivity|]; eauto.
Qed.

(** X14.  The listing never answers success: for every request the
    answer is an error with empty data, no call is made and nothing
    changes.  With valid ordering arguments the error is the [NameError]
    of the unbound name [list_user_documents]. *)
Theorem list_documents_always_errors
    (owner : string) (page limit : Z) (sort_by : string) (sort_order : Z)
    (s : State Ext) :
  (exists msg,
     list_documents owner page limit sort_by sort_order s
     = MkRun (Returned {| list_status := "error"; list_data := [];
                          list_message := msg |}) s [])
  /\ (sort_by ∈ ["created_date"; "questions_count"] ->
      sort_order ∈ [-1; 1] ->
      outcome (list_documents owner page limit sort_by sort_order s)
      = Returned {| list_status := "error"; list_data := [];
                    list_message := NameError_list_user_documents |}).
Proof.
  unfold list_documents. unfold_endpoint. exec.
  all: split; [eexists; reflexivity|]; intros Hby Horder; first [done|reflexivity].
Qed.

(** X15.  In every answer of the search, [total] is the number of
    documents in [data]; an error answer has no data; no [Exception]
    leaves the endpoint. *)
Theorem search_total_counts_data `{QueryCollaborators Ext}
    (query : SearchQuery) (e : Ext) :
  (exists resp e',
     search_documents_route query e = (Returned resp, e')
     /\ search_total resp = length (search_data resp)
     /\ (search_status resp = "success"
         \/ (search_status resp = "error" /\ search_data resp = [])))
  \/ (exists e', search_documents_route query e = (Raised CancelledError, e')).
Proof.
  unfold search_documents_route.
  destruct (search_documents _ _ _ _ _ _ _ _ _ _ e) as [[results|[msg|]] e'].
  - left. eexists _, _. split; [reflexivity|]. cbn. auto.
  - left. eexists _, _. split; [reflexivity|]. cbn. auto.
  - right. by exists e'.
Qed.

(** X16.  The count passes the six filter fields of the query to
    [count_documents] and answers with what that call did: success with
    the number it returned, an error with the count 0 and its message when
    it raised, the cancellation when it was cancelled.  The paging and
    ordering fields of the query do not reach the call, so the answer does
    not depend on them. *)
Theorem count_answers_and_ignores_paging `{QueryCollaborators Ext}
    (query : SearchQuery) (size start : option Z) (sort_by : option string)
    (sort_order : option Z) (e : Ext) :
  ((exists total e',
      count_documents (q_user_id query) (q_is_public query) (q_min_date query)
        (q_max_date query) (q_filename query) (q_file_extension query) e
      = (Returned total, e')
      /\ count_documents_route query e
         = (Returned {| count_status := "success"; count_count := total;
                        count_message := "Count fetched successfully" |}, e'))
   \/ (exists msg e',
         count_documents (q_user_id query) (q_is_public query) (q_min_date query)
           (q_max_date query) (q_filename query) (q_file_extension query) e
         = (Raised (Exception msg), e')
         /\ count_documents_route query e
            = (Returned {| count_status := "error"; count_count := 0;
                           count_message := msg |}, e'))
   \/ (exists e',
         count_documents (q_user_id query) (q_is_public query) (q_min_date query)
           (q_max_date query) (q_filename query) (q_file_extension query) e
         = (Raised CancelledError, e')
         /\ count_documents_route query e = (Raised CancelledError, e')))
  /\ count_documents_route (with_paging query size start sort_by sort_order) e
     = count_documents_route query e.
Proof.
  split; [|reflexivity].
  unfold count_documents_route.
  destruct (count_documents _ _ _ _ _ _ e) as [[total|[msg|]] e']; eauto 6.
Qed.
End QueryTheory.

(** ** The further properties on the deployment *)

Section MoreDeployment.
Import SpecModel Scenario.
Local Open Scope nat_scope.

Local Abbreviation reprocess :=
  (@reprocess_to_pinecone (Store bool) (spec_collaborators cfg)).
Local Abbreviation outside := (MkStore stored indexed true).

(** X3 on the deployment: the reprocessing of d1. *)
Lemma reprocess_success_calls_witness :
  succeeded (reprocess "d1" (world true))
  /\ exists d e1 response e2 tmp e3 documents e4 pc d2 e5 e6,
       @get_document _ (spec_collaborators cfg) "d1" (ext (world true))
       = (Returned (Some d), e1)
       /\ @client_stream _ (spec_collaborators cfg) (file_url d) e1
          = (Returned response, e2)
       /\ @NamedTemporaryFile _ (spec_collaborators cfg) ("." +:+ file_extension d) e2
          = (Returned tmp, e3)
       /\ @extracted_by _ (spec_collaborators cfg) (file_extension d) tmp
            (<[tmp := foldl String.append "" (body response)]> (files (world true)))
            e3 pc documents e4
       /\ @get_document _ (spec_collaborators cfg) "d1" e4 = (Returned (Some d2), e5)
       /\ @add_document _ (spec_collaborators cfg) documents (user_id d2)
            (is_public d2) "d1" (filename d2) e5
          = (Returned tt, e6)
       /\ emitted (reprocess "d1" (world true))
          = [(get_document_call "d1", Done);
             (client_stream_call (file_url d), Done);
             (NamedTemporaryFile_call ("." +:+ file_extension d), Done);
             (pc, Done);
             (get_document_call "d1", Done);
             (add_document_call documents (user_id d2) (is_public d2) "d1"
                (filename d2), Done);
             (os_remove_call tmp, Done)].
Proof.
  assert (succeeded (reprocess "d1" (world true))) as Hok
    by (eexists; split; vm_compute; reflexivity).
  split; [exact Hok|].
  exact (reprocess_success_calls (H := spec_collaborators cfg) "d1" (world true) Hok).
Defined.

(** X4 on the deployment: the three chunks of the body of d2 end up, in
    order, in the temporary file 7. *)
Lemma download_writes_body_in_order_witness :
  @download_document_file _ (spec_collaborators cfg) "d2" (world true)
  = MkRun (Returned (Some 7, "md"))
          (MkState outside (<[7 := "0123456789abcdefghijABCDE"]> ∅))
          [(get_document_call "d2", Done);
           (client_stream_call "http://blob/long", Done);
           (NamedTemporaryFile_call ".md", Done)].
Proof.
  apply (download_writes_body_in_order (H := spec_collaborators cfg)
           "d2" (world true) (doc "http://blob/long" "md" "b.md" 0)
           outside outside outside (blob "http://blob/long") 7);
    vm_compute; reflexivity.
Defined.

(** X5 on the deployment: the reprocessing of d1 removes its temporary
    file once. *)
Lemma fetched_temp_file_removed_once_witness :
  files (final (reprocess "d1" (world true))) = delete 7 ∅
  /\ length (filter (fun ev => removal_of 7 ev.1 = true)
                    (emitted (reprocess "d1" (world true)))) = 1.
Proof.
  apply (fetched_temp_file_removed_once (H := spec_collaborators cfg)
           "d1" (world true) (doc "http://blob/short" "txt" "a.txt" 3)
           outside outside outside (blob "http://blob/short") 7);
    vm_compute; reflexivity.
Defined.

(** X8 on the deployment: no record has the id zz. *)
Lemma delete_unknown_document_purges_witness :
  @delete_document_route _ (spec_collaborators cfg) "zz" (world true)
  = MkRun (Returned (error_response "Document not found"))
          (MkState (MkStore stored (purge "zz" indexed) true) ∅)
          [(delete_chunks_call "zz", Done); (delete_document_call "zz", Done)].
Proof.
  apply (delete_unknown_document_purges (H := spec_collaborators cfg)
           "zz" (world true) (MkStore stored (purge "zz" indexed) true)
           (MkStore stored (purge "zz" indexed) true));
    [reflexivity | vm_compute; reflexivity].
Defined.

(** X9 on the deployment: the blob store is down, the upload answers the
    error and its temporary file is gone. *)
Lemma upload_removes_temp_file_once_witness :
  answered (@upload_document _ (spec_collaborators
                                  (Faults.cfg_store (Exception "blob store down")))
              "u1" true upload (world true))
  /\ files (final (@upload_document _ (spec_collaborators
                                        (Faults.cfg_store (Exception "blob store down")))
                    "u1" true upload (world true))) = delete 7 ∅
  /\ length (filter (fun ev => removal_of 7 ev.1 = true)
                    (emitted (@upload_document _
                                (spec_collaborators
                                   (Faults.cfg_store (Exception "blob store down")))
                                "u1" true upload (world true)))) = 1.
Proof.
  assert (answered (@upload_document _ (spec_collaborators
                                          (Faults.cfg_store (Exception "blob store down")))
                      "u1" true upload (world true))) as Hok
    by (eexists; vm_compute; reflexivity).
  split; [exact Hok|].
  apply (upload_removes_temp_file_once
           (H := spec_collaborators (Faults.cfg_store (Exception "blob store down")))
           "u1" true upload "notes.TXT" (world true) 7 outside);
    [vm_compute; reflexivity | vm_compute; reflexivity | exact Hok].
Defined.

(** X10 on the deployment: the upload of notes.TXT creates the record d9
    and answers with it. *)
Lemma upload_returns_stored_document_witness :
  @upload_document _ (spec_collaborators cfg) "u1" true upload (world true)
  = MkRun (Returned (success_data
                       (Some (doc "http://blob/uploaded" "txt" "notes.TXT" 0))
                       "File uploaded successfully"))
          (MkState (MkStore (<["d9" := doc "http://blob/uploaded" "txt" "notes.TXT" 0]>
                               stored) indexed true)
                   (delete 7 ∅))
          [(NamedTemporaryFile_call ".txt", Done);
           (file_read_call, Done);
           (add_doc_with_link_call "u1" true "notes.TXT" 7, Done);
           (os_remove_call 7, Done);
           (get_document_call "d9", Done)].
Proof.
  apply (upload_returns_stored_document (H := spec_collaborators cfg)
           "u1" true upload "notes.TXT" "some notes" "d9" (world true) 7 outside
           (MkStore (<["d9" := doc "http://blob/uploaded" "txt" "notes.TXT" 0]> stored)
                    indexed true)
           (MkStore (<["d9" := doc "http://blob/uploaded" "txt" "notes.TXT" 0]> stored)
                    indexed true)
           (Some (doc "http://blob/uploaded" "txt" "notes.TXT" 0)));
    vm_compute; reflexivity.
Defined.

(** X11 on the deployment: the request is cancelled while the content is
    being stored. *)
Lemma cancelled_upload_keeps_temp_file_witness :
  outcome (@upload_document _ (spec_collaborators (Faults.cfg_store CancelledError))
             "u1" true upload (world true))
  = Raised CancelledError
  /\ files (final (@upload_document _ (spec_collaborators
                                        (Faults.cfg_store CancelledError))
                    "u1" true upload (world true))) !! 7
     = Some "some notes".
Proof.
  apply (cancelled_upload_keeps_temp_file
           (H := spec_collaborators (Faults.cfg_store CancelledError))
           "u1" true upload "notes.TXT" "some notes" (world true) 7 outside outside);
    vm_compute; reflexivity.
Defined.
End MoreDeployment.
